(** * Fault Prediction Oracle: teacher / student / ensemble composition

    A shallow embedding of [h1st_contrib/pmfp/models/oracle/__init__.py].
    The module is glue over externally defined models, so the embedding keeps
    the external models abstract (every call into them is a function of an
    abstract world that may return or raise) and keeps what the module itself
    does concrete: the order of the calls, the arguments passed, the string
    splitting of version identifiers, tuple unpacking, the positional [zip]
    of batch predictions and the construction of the result. *)

From Stdlib Require Import String Ascii ZArith List Lia.
From stdpp Require Import base list strings gmap.
Import ListNotations.
Local Open Scope string_scope.

(** ** Outcomes of Python calls *)

(** The exceptions the module can meet: the two it can raise itself (tuple
    unpacking raises ValueError, [getattr] raises AttributeError) and whatever
    an external call raises. *)
Inductive PyExn : Type :=
  | ValueError (msg : string)
  | AttributeError (msg : string)
  | ImportError (msg : string)
  | Exception (cls msg : string).

Inductive Outcome (A : Type) : Type :=
  | Return (a : A)
  | Raise (e : PyExn).
Arguments Return {A} a.
Arguments Raise {A} e.

(** [a, b = parts]: unpacking into exactly two targets. *)
Definition unpack2 {A : Type} (parts : list A) : Outcome (A * A) :=
  match parts with
  | [a; b] => Return (a, b)
  | _ :: _ :: _ :: _ => Raise (ValueError "too many values to unpack (expected 2)")
  | _ => Raise (ValueError "not enough values to unpack (expected 2)")
  end.

(** ** Python strings: [str.split(sep)] *)

Module PyStr.

(** [sep] is a prefix of [s]. *)
Fixpoint startswith (sep s : string) : bool :=
  match sep, s with
  | EmptyString, _ => true
  | String a sep', String b s' => if Ascii.eqb a b then startswith sep' s' else false
  | String _ _, EmptyString => false
  end.

(** The scan of [str.split(sep)] for a non-empty [sep]: the string is read
    left to right, [cur] is the piece collected since the last separator and
    [skip] counts the characters of a separator just matched that are still
    to be passed over, so matches are leftmost and do not overlap. *)
Fixpoint split_scan (sep : string) (skip : nat) (cur s : string) : list string :=
  match s with
  | EmptyString => [cur]
  | String c s' =>
      match skip with
      | S k => split_scan sep k cur s'
      | O =>
          if startswith sep s
          then cur :: split_scan sep (String.length sep - 1) EmptyString s'
          else split_scan sep 0 (cur ++ String c EmptyString) s'
      end
  end.

(** [s.split(sep)]; Python raises ValueError for an empty separator. *)
Definition split (sep s : string) : Outcome (list string) :=
  match sep with
  | EmptyString => Raise (ValueError "empty separator")
  | _ => Return (split_scan sep 0 EmptyString s)
  end.


End PyStr.

(** Python's [zip] of three iterables stops at the shortest. *)
Fixpoint zip3 {A B C : Type} (xs : list A) (ys : list B) (zs : list C) : list (A * B * C) :=
  match xs, ys, zs with
  | x :: xs', y :: ys', z :: zs' => (x, y, z) :: zip3 xs' ys' zs'
  | _, _, _ => []
  end.

(** ** State and exceptions

    Methods are functions of a state that return or raise. *)
Definition StateExn (S A : Type) : Type := S -> Outcome A * S.

Definition ret {S A : Type} (a : A) : StateExn S A := fun st => (Return a, st).

Definition raise {S A : Type} (e : PyExn) : StateExn S A := fun st => (Raise e, st).

(** Sequencing: an exception of the first part ends the computation.  There
    is no handler: the module has no [try]. *)
Definition bind {S A B : Type} (m : StateExn S A) (k : A -> StateExn S B) : StateExn S B :=
  fun st =>
    match m st with
    | (Return a, st') => k a st'
    | (Raise e, st') => (Raise e, st')
    end.

(** A pure step that may raise. *)
Definition lift {S A : Type} (o : Outcome A) : StateExn S A := fun st => (o, st).

Declare Scope py_scope.
Delimit Scope py_scope with py.
Notation "x <- c1 ;; c2" := (bind c1 (fun x => c2))
  (at level 100, c1 at next level, right associativity) : py_scope.
Notation "c1 ;; c2" := (bind c1 (fun _ => c2))
  (at level 100, right associativity) : py_scope.

Section Oracle.

(** The world outside the module (model registries, the models' own state,
    the data store), data frames, batch data feeders and the row labels of a
    pandas index. *)
Context {World DataFrame S3ParquetDataFeeder Label : Type}.

(** A call into external code: it may change the world, and returns or raises. *)
Definition Ext (A : Type) : Type := World -> Outcome A * World.

(** A pandas Series: a name and the rows in positional order, each a label of
    the index with its value (labels may repeat). *)
Record Series (A : Type) : Type := mkSeries {
  s_name : option string;
  s_rows : list (Label * A)
}.
Arguments mkSeries {A} _ _.
Arguments s_name {A} _.
Arguments s_rows {A} _.

(** [series.index] and iteration over a Series (its values, by position). *)
Definition s_index {A : Type} (s : Series A) : list Label := map fst (s_rows s).
Definition s_values {A : Type} (s : Series A) : list A := map snd (s_rows s).

(** [Series(data=..., index=..., name=...)] on an iterable [data]: the i-th
    value is given the i-th label.  pandas raises ValueError when there are
    not as many values as labels (some releases first repeat a single value
    to the length of the index); no result below rests on what is raised in
    that case. *)
Definition Series_new {A : Type} (data : list A) (index : list Label) (name : string)
  : Outcome (Series A) :=
  if Nat.eqb (length data) (length index)
  then Return (mkSeries (Some name) (combine index data))
  else Raise (ValueError "Length of values does not match length of index").

(** *** The external models, as objects with their methods *)

Record BaseFaultPredTeacher : Type := mkTeacher {
  t_general_type : string;
  t_unique_type_group : string;
  t_predict : DataFrame -> Ext bool;
  t_batch_predict : S3ParquetDataFeeder -> Ext (Series bool)
}.

(** [predict] and [batch_predict] of the student take [return_binary]. *)
Record TimeSeriesDLFaultPredStudent : Type := mkStudent {
  st_version : string;
  st_predict : DataFrame -> bool -> Ext bool;
  st_batch_predict : S3ParquetDataFeeder -> bool -> Ext (Series bool);
  st_tune_decision_threshold : string * string -> Ext unit
}.

Record Ensemble : Type := mkEnsemble {
  e_predict : bool -> bool -> Ext bool;
  e_batch_predict : Series bool -> Series bool -> Ext (Series bool)
}.

(** An instance of [TimeSeriesDLFaultPredStudentModeler]. *)
Record StudentModeler : Type := mkStudentModeler {
  sm_build_model : Ext TimeSeriesDLFaultPredStudent
}.

(** A teacher class found in [ai.models], with its [load] class method. *)
Record TeacherClass : Type := mkTeacherClass {
  tc_load : string -> Ext BaseFaultPredTeacher
}.

(** What the module imports: the [ai.models] registry (imported inside
    [load]; its attributes are the teacher classes by name), the class-level
    entry points of the student and its modeler, and the one
    [UnanimousFaultPredEnsemble()] instance created when the [def] of
    [FaultPredOracle.__init__] is evaluated. *)
Record Framework : Type := mkFramework {
  import_ai_models : Ext (gmap string TeacherClass);
  Student_load : string -> Ext TimeSeriesDLFaultPredStudent;
  Student_list_versions : Ext (list string);
  StudentModeler_new :
    BaseFaultPredTeacher -> list string -> list string -> Z -> string * string ->
    Ext StudentModeler;
  UnanimousFaultPredEnsemble_instance : Ensemble
}.

(** *** The module's own objects *)

Record FaultPredOracleModeler : Type := mkModeler {
  m_teacher : BaseFaultPredTeacher;
  student_input_cat_cols : list string;
  student_input_num_cols : list string;
  student_input_subsampling_factor : Z;
  student_train_date_range : string * string;
  student_tuning_date_range : string * string
}.

Record FaultPredOracle : Type := mkOracle {
  general_type : string;
  unique_type_group : string;
  version : string;
  teacher : BaseFaultPredTeacher;
  student : TimeSeriesDLFaultPredStudent;
  ensemble : Ensemble
}.

(** *** The state threaded through the methods *)

(** Every call the module makes into external code, with its arguments. *)
Inductive Event : Type :=
  | TeacherPredict (t : BaseFaultPredTeacher) (df : DataFrame)
  | StudentPredict (s : TimeSeriesDLFaultPredStudent) (df : DataFrame) (return_binary : bool)
  | EnsemblePredict (e : Ensemble) (teacher_pred student_pred : bool)
  | TeacherBatchPredict (t : BaseFaultPredTeacher) (feeder : S3ParquetDataFeeder)
  | StudentBatchPredict (s : TimeSeriesDLFaultPredStudent) (feeder : S3ParquetDataFeeder)
      (return_binary : bool)
  | EnsembleBatchPredict (e : Ensemble) (teacher_preds student_preds : Series bool)
  | ImportAiModels
  | TeacherClassLoad (class_name : string) (c : TeacherClass) (version : string)
  | StudentLoad (version : string)
  | StudentListVersions
  | StudentModelerNew (t : BaseFaultPredTeacher) (input_cat_cols input_num_cols : list string)
      (input_subsampling_factor : Z) (date_range : string * string)
  | StudentModelerBuildModel (sm : StudentModeler)
  | TuneDecisionThreshold (s : TimeSeriesDLFaultPredStudent) (tuning_date_range : string * string).

(** The external world, the oracle objects created so far (an oracle is
    referred to by its position in [heap]) and the log of external calls. *)
Record State : Type := mkState {
  world : World;
  heap : list FaultPredOracle;
  calls : list Event
}.

Definition M (A : Type) : Type := StateExn State A.

(** An external call: logged, run on the world; the oracle objects are not
    reachable from it (no method passes [self] to a held model). *)
Definition call {A : Type} (ev : Event) (f : Ext A) : M A :=
  fun st =>
    let (r, w) := f (world st) in
    (r, mkState w (heap st) (calls st ++ [ev])).

(** Reading the attributes of an oracle object. *)
Definition deref (self : nat) : M FaultPredOracle :=
  fun st =>
    match heap st !! self with
    | Some o => (Return o, st)
    | None => (Raise (Exception "ReferenceError" "no such object"), st)
    end.

(** Creating an oracle object. *)
Definition alloc (o : FaultPredOracle) : M nat :=
  fun st => (Return (length (heap st)), mkState (world st) (heap st ++ [o]) (calls st)).

(** A computation that leaves the oracle objects as they are, whether it
    returns or raises. *)
Definition keeps_heap {A : Type} (m : M A) : Prop :=
  forall st, heap (snd (m st)) = heap st.

Context (fw : Framework).

Local Open Scope py_scope.

(** *** FaultPredOracleModeler *)

(** [FaultPredOracleModeler.build_model]: the body ends after the call of
    [tune_decision_threshold], so the value returned is Python's [None]; the
    result type allows for the [FaultPredOracle] of the annotation. *)
Definition build_model (self : FaultPredOracleModeler) : M (option nat) :=
  sm <- call (StudentModelerNew (m_teacher self)
                (student_input_cat_cols self) (student_input_num_cols self)
                (student_input_subsampling_factor self) (student_train_date_range self))
             (StudentModeler_new fw (m_teacher self)
                (student_input_cat_cols self) (student_input_num_cols self)
                (student_input_subsampling_factor self) (student_train_date_range self)) ;;
  student <- call (StudentModelerBuildModel sm) (sm_build_model sm) ;;
  call (TuneDecisionThreshold student (student_tuning_date_range self))
       (st_tune_decision_threshold student (student_tuning_date_range self)) ;;
  ret None.

(** *** FaultPredOracle *)

(** The attributes kept by the base class. *)
Record BaseFaultPredictor : Type := mkBase {
  b_general_type : string;
  b_unique_type_group : string;
  b_version : string
}.

(** [BaseFaultPredictor.__init__] is defined in
    [h1st_contrib.pmfp.models.base], which is not among the sources, and
    nothing else says what it does with its arguments.  It is therefore a
    parameter [base_init] of the constructor: a call that is given the
    general type, the unique type group and the version, may change the world,
    may raise, and whose result is the three attributes it leaves on the
    object. *)
Definition BaseInit : Type := string -> string -> string -> Ext BaseFaultPredictor.

(** The initialiser that keeps the three values it is given and does nothing
    else: the one instance of [BaseInit] used where the three attributes play
    no part. *)
Definition BaseFaultPredictor_init (general_type unique_type_group version : string)
  : BaseFaultPredictor :=
  mkBase general_type unique_type_group version.

Definition keeping_base_init : BaseInit :=
  fun general_type unique_type_group version w =>
    (Return (BaseFaultPredictor_init general_type unique_type_group version), w).


(** [super().__init__(...)]: run on the world; it is the object's own
    construction and is not entered in the log of calls to the models. *)
Definition super_init (f : Ext BaseFaultPredictor) : M BaseFaultPredictor :=
  fun st =>
    let (r, w) := f (world st) in
    (r, mkState w (heap st) (calls st)).

(** [FaultPredOracle(teacher, student, ensemble)]: a new object, initialised
    by [__init__]: the base class is initialised first, with the teacher's
    general type and unique type group and the student's version, then the
    teacher, the student and the ensemble are stored.  [ensemble] is [None]
    when the argument is left out, and the default is the instance created at
    definition time. *)
Definition FaultPredOracle_init_on (base_init : BaseInit)
    (teacher : BaseFaultPredTeacher) (student : TimeSeriesDLFaultPredStudent)
    (ensemble : option Ensemble) : M nat :=
  let ensemble := default (UnanimousFaultPredEnsemble_instance fw) ensemble in
  base <- super_init (base_init (t_general_type teacher) (t_unique_type_group teacher)
                        (st_version student)) ;;
  alloc (mkOracle (b_general_type base) (b_unique_type_group base) (b_version base)
           teacher student ensemble).

(** The constructor over the initialiser that keeps its arguments. *)
Definition FaultPredOracle_init (teacher : BaseFaultPredTeacher)
    (student : TimeSeriesDLFaultPredStudent) (ensemble : option Ensemble) : M nat :=
  FaultPredOracle_init_on keeping_base_init teacher student ensemble.

(** [getattr(ai.models, name)]. *)
Definition getattr_models (models : gmap string TeacherClass) (name : string)
  : M TeacherClass :=
  match models !! name with
  | Some c => ret c
  | None => raise (AttributeError name)
  end.

(** [FaultPredOracle.load], the base-class initialiser left open. *)
Definition load_on (base_init : BaseInit) (version : string) : M nat :=
  models <- call ImportAiModels (import_ai_models fw) ;;
  parts <- lift (PyStr.split "---" version) ;;
  names <- lift (unpack2 parts) ;;
  let '(teacher_name, _student_name) := names in
  parts <- lift (PyStr.split "--" teacher_name) ;;
  names <- lift (unpack2 parts) ;;
  let '(teacher_class_name, teacher_version) := names in
  teacher_class <- getattr_models models teacher_class_name ;;
  teacher <- call (TeacherClassLoad teacher_class_name teacher_class teacher_version)
                  (tc_load teacher_class teacher_version) ;;
  student <- call (StudentLoad version) (Student_load fw version) ;;
  FaultPredOracle_init_on base_init teacher student None.

(** [FaultPredOracle.load] over the initialiser that keeps its arguments. *)
Definition load (version : string) : M nat := load_on keeping_base_init version.

(** [FaultPredOracle.list_versions]. *)
Definition list_versions : M (list string) :=
  call StudentListVersions (Student_list_versions fw).

(** [FaultPredOracle.predict]: the tuple display is evaluated left to right. *)
Definition predict (self : nat) (df : DataFrame) : M (bool * bool * bool) :=
  o <- deref self ;;
  teacher_pred <- call (TeacherPredict (teacher o) df) (t_predict (teacher o) df) ;;
  o <- deref self ;;
  student_pred <- call (StudentPredict (student o) df true) (st_predict (student o) df true) ;;
  o <- deref self ;;
  ensemble_pred <- call (EnsemblePredict (ensemble o) teacher_pred student_pred)
                        (e_predict (ensemble o) teacher_pred student_pred) ;;
  ret (teacher_pred, student_pred, ensemble_pred).

(** [FaultPredOracle.batch_predict]: the arguments of [zip] are evaluated left
    to right, then [ensemble_preds.index]; [Series] consumes the [zip]. *)
Definition batch_predict (self : nat) (s3_parquet_df : S3ParquetDataFeeder)
  : M (Series (bool * bool * bool)) :=
  o <- deref self ;;
  teacher_preds <- call (TeacherBatchPredict (teacher o) s3_parquet_df)
                        (t_batch_predict (teacher o) s3_parquet_df) ;;
  o <- deref self ;;
  student_preds <- call (StudentBatchPredict (student o) s3_parquet_df true)
                        (st_batch_predict (student o) s3_parquet_df true) ;;
  o <- deref self ;;
  ensemble_preds <- call (EnsembleBatchPredict (ensemble o) teacher_preds student_preds)
                         (e_batch_predict (ensemble o) teacher_preds student_preds) ;;
  lift (Series_new (zip3 (s_values teacher_preds) (s_values student_preds)
                         (s_values ensemble_preds))
                   (s_index ensemble_preds) "FAULT").

End Oracle.

Arguments mkSeries {Label A} _ _.
Arguments s_name {Label A} _.
Arguments s_rows {Label A} _.

(** ** Row alignment of a batch result

    The rows of [res] are aligned by row label with the three batch
    predictions: the triple found at a label consists of the teacher's, the
    student's and the ensemble's value at that same label. *)
Definition rows_aligned {Label : Type} (teacher_preds student_preds ensemble_preds : Series bool)
    (res : @Series Label (bool * bool * bool)) : Prop :=
  forall l t s e,
    In (l, (t, s, e)) (s_rows res) ->
    In (l, t) (s_rows teacher_preds) /\
    In (l, s) (s_rows student_preds) /\
    In (l, e) (s_rows ensemble_preds).

(** A version identifier that does not have the two-level shape
    [teacher_class--teacher_version---student_name]: one of the two splits does
    not give exactly two parts. *)
Inductive malformed (version : string) : Prop :=
  | malformed_outer (parts : list string) :
      PyStr.split "---" version = Return parts ->
      length parts <> 2 ->
      malformed version
  | malformed_inner (teacher_name student_name : string) (parts : list string) :
      PyStr.split "---" version = Return [teacher_name; student_name] ->
      PyStr.split "--" teacher_name = Return parts ->
      length parts <> 2 ->
      malformed version.

(** ** A small concrete framework

    One instance of everything external, so that the methods can be run: the
    world counts the external calls served, a data frame is one reading, a
    data feeder is a list of dated readings, labels are dates. *)
Module Demo.

Definition World : Type := nat.
Definition DataFrame : Type := Z.
Definition S3ParquetDataFeeder : Type := list (string * Z).
Definition Label : Type := string.

Definition served {A : Type} (a : A) : @Ext World A := fun w => (Return a, S w).
Definition failed {A : Type} (e : PyExn) : @Ext World A := fun w => (Raise e, S w).

(** A rule-based teacher: a reading above 100 is a fault. *)
Definition demo_teacher : @BaseFaultPredTeacher World DataFrame S3ParquetDataFeeder Label :=
  mkTeacher "refrig" "co2_mid_1_compressor"
    (fun df => served (100 <? df)%Z)
    (fun feeder => served (mkSeries None (map (fun r => (fst r, (100 <? snd r)%Z)) feeder))).

(** A student with threshold 90; [lag] is the number of leading rows for which
    it has too little history to predict in batch. *)
Definition demo_student (lag : nat) (version : string)
  : @TimeSeriesDLFaultPredStudent World DataFrame S3ParquetDataFeeder Label :=
  mkStudent version
    (fun df _ => served (90 <? df)%Z)
    (fun feeder _ =>
       served (mkSeries None (map (fun r => (fst r, (90 <? snd r)%Z)) (drop lag feeder))))
    (fun _ => served tt).

(** The teacher's value at a date. *)
Definition at_label (l : string) (s : @Series Label bool) : option bool :=
  snd <$> List.find (fun r => String.eqb l (fst r)) (s_rows s).

(** A unanimous vote; in batch, one row per date of the student for which the
    teacher has a value. *)
Definition demo_ensemble : @Ensemble World Label :=
  mkEnsemble
    (fun t s => served (t && s))
    (fun tp sp =>
       served (mkSeries None
                 (omap (fun r => match at_label (fst r) tp with
                                 | Some t => Some (fst r, t && snd r)
                                 | None => None
                                 end) (s_rows sp)))).

Definition demo_versions : list string := ["DemoTeacher--1.0---20210101"].

Definition demo_teacher_class : @TeacherClass World DataFrame S3ParquetDataFeeder Label :=
  mkTeacherClass
    (fun version =>
       if String.eqb version "1.0" then served demo_teacher
       else failed (Exception "FileNotFoundError" version)).

Definition demo_framework : @Framework World DataFrame S3ParquetDataFeeder Label :=
  mkFramework
    (served {[ "DemoTeacher" := demo_teacher_class ]})
    (fun version =>
       if bool_decide (version ∈ demo_versions) then served (demo_student 0 version)
       else failed (Exception "FileNotFoundError" version))
    (served demo_versions)
    (fun _ _ _ _ _ => served (mkStudentModeler (served (demo_student 0 "20210101"))))
    demo_ensemble.

Definition demo_modeler : @FaultPredOracleModeler World DataFrame S3ParquetDataFeeder Label :=
  mkModeler demo_teacher ["site"] ["temperature"; "pressure"] 6
    ("2020-01-01", "2020-06-30") ("2020-07-01", "2020-12-31").

(** An oracle as [load] builds it, and one whose student lags by a day. *)
Definition demo_oracle (lag : nat) : @FaultPredOracle World DataFrame S3ParquetDataFeeder Label :=
  mkOracle "refrig" "co2_mid_1_compressor" "DemoTeacher--1.0---20210101"
    demo_teacher (demo_student lag "DemoTeacher--1.0---20210101") demo_ensemble.

Definition demo_state (lag : nat) : @State World DataFrame S3ParquetDataFeeder Label :=
  mkState 0 [demo_oracle lag] [].

Definition demo_feeder : S3ParquetDataFeeder :=
  [("2021-01-01", 120%Z); ("2021-01-02", 50%Z)].

End Demo.

(** ** Further definitions for the properties of [load] and of failing runs *)

(** A string without the character ['-'], of which both separators are made. *)
Fixpoint dash_free (s : string) : bool :=
  match s with
  | EmptyString => true
  | String c s' => negb (Ascii.eqb c "-") && dash_free s'
  end.

(** A computation that leaves the oracle objects as they are when it raises. *)
Definition keeps_heap_on_raise {World DataFrame S3ParquetDataFeeder Label A : Type}
    (m : @M World DataFrame S3ParquetDataFeeder Label A) : Prop :=
  forall st e st', m st = (Raise e, st') -> heap st' = heap st.

(** Models that fail, for the concrete framework: a teacher whose sensor
    reading must not be negative, a student that has no model file, an
    ensemble that cannot vote, and modelers that cannot be set up or cannot
    train. *)
Module DemoFailures.

Import Demo.

Definition sensor_error : PyExn := Exception "SensorError" "negative reading".
Definition no_model_file : PyExn := Exception "FileNotFoundError" "student model".
Definition no_vote : PyExn := Exception "NotImplementedError" "vote".
Definition no_data : PyExn := Exception "NoDataError" "training date range".

Definition strict_teacher : @BaseFaultPredTeacher World DataFrame S3ParquetDataFeeder Label :=
  mkTeacher "refrig" "co2_mid_1_compressor"
    (fun df => if (df <? 0)%Z then failed sensor_error else served (100 <? df)%Z)
    (fun feeder =>
       if existsb (fun r => (snd r <? 0)%Z) feeder then failed sensor_error
       else served (mkSeries None (map (fun r => (fst r, (100 <? snd r)%Z)) feeder))).

Definition missing_student
  : @TimeSeriesDLFaultPredStudent World DataFrame S3ParquetDataFeeder Label :=
  mkStudent "20210101"
    (fun _ _ => failed no_model_file)
    (fun _ _ => failed no_model_file)
    (fun _ => failed no_model_file).

Definition silent_ensemble : @Ensemble World Label :=
  mkEnsemble (fun _ _ => failed no_vote) (fun _ _ => failed no_vote).

(** Oracles held by the states below: the strict teacher with the demo
    student, the demo teacher with the missing student, and both demo models
    with the silent ensemble. *)
Definition failing_state : @State World DataFrame S3ParquetDataFeeder Label :=
  mkState 0
    [mkOracle "refrig" "co2_mid_1_compressor" "20210101"
       strict_teacher (demo_student 0 "20210101") demo_ensemble;
     mkOracle "refrig" "co2_mid_1_compressor" "20210101"
       demo_teacher missing_student demo_ensemble;
     mkOracle "refrig" "co2_mid_1_compressor" "20210101"
       demo_teacher (demo_student 0 "20210101") silent_ensemble]
    [].

(** A framework whose student modeler is set up but cannot train. *)
Definition untrainable_framework : @Framework World DataFrame S3ParquetDataFeeder Label :=
  mkFramework
    (import_ai_models demo_framework)
    (Student_load demo_framework)
    (Student_list_versions demo_framework)
    (fun _ _ _ _ _ => served (mkStudentModeler (failed no_data)))
    demo_ensemble.

(** A framework whose student modeler cannot be set up. *)
Definition unconfigured_framework : @Framework World DataFrame S3ParquetDataFeeder Label :=
  mkFramework
    (import_ai_models demo_framework)
    (Student_load demo_framework)
    (Student_list_versions demo_framework)
    (fun _ _ _ _ _ => failed no_data)
    demo_ensemble.


End DemoFailures.

Example split_version_1 :
  PyStr.split "---" "FooTeacher--1.0---20210101" = Return ["FooTeacher--1.0"; "20210101"].
Proof. reflexivity. Qed.

Example split_version_2 :
  PyStr.split "--" "FooTeacher--1.0" = Return ["FooTeacher"; "1.0"].
Proof. reflexivity. Qed.

Example split_version_3 : PyStr.split "---" "a----b" = Return ["a"; "-b"].
Proof. reflexivity. Qed.

Example split_version_4 : PyStr.split "---" "abc" = Return ["abc"].
Proof. reflexivity. Qed.

Example split_version_5 : PyStr.split "--" "a--b--" = Return ["a"; "b"; ""].
Proof. reflexivity. Qed.

(** ** Splitting and joining *)

Section SplitJoin.

Lemma append_cons (c : ascii) (s t : string) : String c s ++ t = String c (s ++ t).
Proof. reflexivity. Qed.

Lemma append_nil_r (s : string) : s ++ "" = s.
Proof. induction s as [| c s IH]; [reflexivity |]. now rewrite append_cons, IH. Qed.

Lemma append_assoc (s t u : string) : (s ++ t) ++ u = s ++ t ++ u.
Proof. induction s as [| c s IH]; [reflexivity |]. now rewrite !append_cons, IH. Qed.




Lemma split_scan_cons (sep : string) (skip : nat) (cur s : string) :
  exists p ps, PyStr.split_scan sep skip cur s = p :: ps.
Proof.
  revert skip cur. induction s as [| c s IH]; intros skip cur; simpl.
  - eauto.
  - destruct skip as [| k]; [| apply IH].
    destruct (PyStr.startswith sep (String c s)); [eauto | apply IH].
Qed.





End SplitJoin.

(** ** Zipping by position *)

Section Zip.

Context {A B C L : Type}.

Lemma zip3_length (xs : list A) (ys : list B) (zs : list C) :
  length zs <= length xs -> length zs <= length ys ->
  length (zip3 xs ys zs) = length zs.
Proof.
  revert xs ys. induction zs as [| z zs IH]; intros xs ys Hx Hy.
  - destruct xs, ys; reflexivity.
  - destruct xs as [| x xs]; [simpl in Hx; lia |].
    destruct ys as [| y ys]; [simpl in Hy; lia |].
    simpl in *. rewrite IH; lia.
Qed.

Lemma combine_fst (ls : list L) (xs : list A) :
  length xs = length ls -> map fst (combine ls xs) = ls.
Proof.
  revert xs. induction ls as [| l ls IH]; intros [| x xs] H; simpl in *;
    try reflexivity; try discriminate.
  now rewrite IH by lia.
Qed.

Lemma combine_snd (ls : list L) (xs : list A) :
  length xs = length ls -> map snd (combine ls xs) = xs.
Proof.
  revert xs. induction ls as [| l ls IH]; intros [| x xs] H; simpl in *;
    try reflexivity; try discriminate.
  now rewrite IH by lia.
Qed.

(** Three lists of rows with the same labels, zipped by position, pair every
    label with the values that stand at that label. *)
Lemma zip3_same_labels (tp : list (L * A)) (sp : list (L * B)) (ep : list (L * C)) :
  map fst tp = map fst ep -> map fst sp = map fst ep ->
  forall l t s e,
    In (l, (t, s, e)) (combine (map fst ep) (zip3 (map snd tp) (map snd sp) (map snd ep))) ->
    In (l, t) tp /\ In (l, s) sp /\ In (l, e) ep.
Proof.
  revert tp sp. induction ep as [| [le e0] ep IH]; intros tp sp Ht Hs l t s e Hin.
  - destruct Hin.
  - destruct tp as [| [lt t0] tp]; [discriminate |].
    destruct sp as [| [ls s0] sp]; [discriminate |].
    simpl in Ht, Hs. injection Ht as -> Ht. injection Hs as -> Hs.
    simpl in Hin. destruct Hin as [Heq | Hin].
    + injection Heq as <- <- <- <-. simpl. auto.
    + destruct (IH tp sp Ht Hs l t s e Hin) as (H1 & H2 & H3). simpl. auto.
Qed.

End Zip.

(** ** Running the monad *)

Section Run.

Context {S A B : Type}.

Lemma bind_Return (m : StateExn S A) (k : A -> StateExn S B) st a st' :
  m st = (Return a, st') -> bind m k st = k a st'.
Proof. intros H. unfold bind. now rewrite H. Qed.

Lemma bind_Raise (m : StateExn S A) (k : A -> StateExn S B) st e st' :
  m st = (Raise e, st') -> bind m k st = (Raise e, st').
Proof. intros H. unfold bind. now rewrite H. Qed.

(** A computation that returns went through its first part. *)
Lemma bind_inv_Return (m : StateExn S A) (k : A -> StateExn S B) st b st2 :
  bind m k st = (Return b, st2) ->
  exists a st1, m st = (Return a, st1) /\ k a st1 = (Return b, st2).
Proof.
  unfold bind. destruct (m st) as [[a | e] st1]; intros H.
  - now exists a, st1.
  - discriminate.
Qed.

End Run.

Section Facts.

Context {World DataFrame S3ParquetDataFeeder Label : Type}.
Context (fw : @Framework World DataFrame S3ParquetDataFeeder Label).

Local Abbreviation State := (@State World DataFrame S3ParquetDataFeeder Label).
Local Abbreviation M := (@M World DataFrame S3ParquetDataFeeder Label).
Local Abbreviation Event := (@Event World DataFrame S3ParquetDataFeeder Label).

Lemma call_outcome {A : Type} (ev : Event) (f : Ext A) (st : State) r w :
  f (world st) = (r, w) ->
  call ev f st = (r, mkState w (heap st) (calls st ++ [ev])).
Proof. intros H. unfold call. now rewrite H. Qed.

Lemma call_inv {A : Type} (ev : Event) (f : Ext A) (st : State) r st' :
  call ev f st = (r, st') ->
  exists w, f (world st) = (r, w) /\ st' = mkState w (heap st) (calls st ++ [ev]).
Proof.
  unfold call. destruct (f (world st)) as [r0 w]. intros H. inversion H. now exists w.
Qed.

Lemma deref_Some (self : nat) (st : State) o :
  heap st !! self = Some o -> deref self st = (Return o, st).
Proof. intros H. unfold deref. now rewrite H. Qed.

Lemma lift_inv {A : Type} (o : Outcome A) (st : State) a st' :
  lift o st = (Return a, st') -> o = Return a /\ st' = st.
Proof. unfold lift. intros H. inversion H. auto. Qed.

Lemma unpack2_inv {A : Type} (parts : list A) a b :
  unpack2 parts = Return (a, b) -> parts = [a; b].
Proof.
  destruct parts as [| x [| y [| z parts]]]; simpl; intros H; inversion H. reflexivity.
Qed.

Lemma unpack2_Raise {A : Type} (parts : list A) :
  length parts <> 2 -> exists msg, unpack2 parts = Raise (ValueError msg).
Proof.
  destruct parts as [| x [| y [| z parts]]]; simpl; intros H; eauto. congruence.
Qed.

(** *** The heap is a frame of every step but [alloc] *)

Lemma keeps_heap_ret {A : Type} (a : A) : keeps_heap (ret a : M A).
Proof. intros st. reflexivity. Qed.

Lemma keeps_heap_raise {A : Type} (e : PyExn) : keeps_heap (raise e : M A).
Proof. intros st. reflexivity. Qed.

Lemma keeps_heap_lift {A : Type} (o : Outcome A) : keeps_heap (lift o : M A).
Proof. intros st. reflexivity. Qed.

Lemma keeps_heap_call {A : Type} (ev : Event) (f : Ext A) : keeps_heap (call ev f).
Proof. intros st. unfold call. now destruct (f (world st)). Qed.

Lemma keeps_heap_deref (self : nat) : keeps_heap (deref self : M _).
Proof. intros st. unfold deref. now destruct (heap st !! self). Qed.

Lemma keeps_heap_bind {A B : Type} (m : M A) (k : A -> M B) :
  keeps_heap m -> (forall a, keeps_heap (k a)) -> keeps_heap (bind m k).
Proof.
  intros Hm Hk st. unfold bind. specialize (Hm st).
  destruct (m st) as [[a | e] st1]; simpl in Hm.
  - now rewrite Hk.
  - exact Hm.
Qed.

(** [load] written out: the steps of [load_on], ending in the constructor over
    the initialiser that keeps its arguments. *)
Lemma load_unfold (v : string) :
  load fw v =
    (models <- call ImportAiModels (import_ai_models fw) ;;
     parts <- lift (PyStr.split "---" v) ;;
     names <- lift (unpack2 parts) ;;
     let '(teacher_name, _student_name) := names in
     parts <- lift (PyStr.split "--" teacher_name) ;;
     names <- lift (unpack2 parts) ;;
     let '(teacher_class_name, teacher_version) := names in
     teacher_class <- getattr_models models teacher_class_name ;;
     teacher <- call (TeacherClassLoad teacher_class_name teacher_class teacher_version)
                     (tc_load teacher_class teacher_version) ;;
     student <- call (StudentLoad v) (Student_load fw v) ;;
     FaultPredOracle_init fw teacher student None)%py.
Proof. reflexivity. Qed.

End Facts.

Create HintDb frame.

#[local] Hint Resolve keeps_heap_ret keeps_heap_raise keeps_heap_lift keeps_heap_call
  keeps_heap_deref : frame.

(** One step of a run: the first part of a sequence returns, by [H], or
    raises. *)
Ltac step_by tac := erewrite bind_Return by tac; cbv beta iota.
Ltac stop_by tac := erewrite bind_Raise by tac.
Ltac read_self H := step_by ltac:(apply deref_Some; exact H).
Ltac call_returns H := step_by ltac:(apply call_outcome; exact H).
Ltac call_raises H := stop_by ltac:(apply call_outcome; exact H).

(** The start of [load] on a well-formed version: the import and the two
    splits. *)
Ltac load_splits Himp Hv Htn :=
  rewrite load_unfold; call_returns Himp;
  rewrite Hv; step_by ltac:(reflexivity); step_by ltac:(reflexivity);
  rewrite Htn; step_by ltac:(reflexivity); step_by ltac:(reflexivity).

Ltac frame := repeat (apply keeps_heap_bind; [| intros ?]); auto with frame.

(** ** The methods *)

Section Claims.

Context {World DataFrame S3ParquetDataFeeder Label : Type}.
Context (fw : @Framework World DataFrame S3ParquetDataFeeder Label).

Local Abbreviation State := (@State World DataFrame S3ParquetDataFeeder Label).
Local Abbreviation FaultPredOracle := (@FaultPredOracle World DataFrame S3ParquetDataFeeder Label).
Local Abbreviation TeacherClass := (@TeacherClass World DataFrame S3ParquetDataFeeder Label).
Local Abbreviation M := (@M World DataFrame S3ParquetDataFeeder Label).

(** *** [load], step by step *)

(** The oracle that [__init__] makes of a teacher and a student when no
    ensemble is given. *)
Lemma FaultPredOracle_init_outcome (t : BaseFaultPredTeacher)
    (s : TimeSeriesDLFaultPredStudent) (e : option Ensemble) (st : State) :
  FaultPredOracle_init fw t s e st =
    (Return (length (heap st)),
     mkState (world st)
       (heap st ++ [mkOracle (t_general_type t) (t_unique_type_group t) (st_version s) t s
                      (default (UnanimousFaultPredEnsemble_instance fw) e)])
       (calls st)).
Proof. reflexivity. Qed.

Lemma getattr_models_inv (models : gmap string TeacherClass) (name : string)
    (st : State) c st' :
  getattr_models models name st = (Return c, st') -> models !! name = Some c /\ st' = st.
Proof.
  unfold getattr_models. destruct (models !! name) as [c0 |]; intros H; inversion H. auto.
Qed.


(** Every run of [load] that returns is such a run. *)
Lemma load_inv (version : string) (st : State) r st' :
  load fw version st = (Return r, st') ->
  exists models w1 teacher_name student_name class_name teacher_version c t w2 s w3,
    import_ai_models fw (world st) = (Return models, w1) /\
    PyStr.split "---" version = Return [teacher_name; student_name] /\
    PyStr.split "--" teacher_name = Return [class_name; teacher_version] /\
    models !! class_name = Some c /\
    tc_load c teacher_version w1 = (Return t, w2) /\
    Student_load fw version w2 = (Return s, w3) /\
    r = length (heap st) /\
    st' = mkState w3
            (heap st ++ [mkOracle (t_general_type t) (t_unique_type_group t) (st_version s) t s
                           (UnanimousFaultPredEnsemble_instance fw)])
            (calls st ++ [ImportAiModels; TeacherClassLoad class_name c teacher_version;
                          StudentLoad version]).
Proof.
  intros H. rewrite load_unfold in H.
  apply bind_inv_Return in H as (models & st1 & Himp & H).
  apply call_inv in Himp as (w1 & Himp & ->).
  apply bind_inv_Return in H as (parts & st2 & Hv & H).
  apply lift_inv in Hv as [Hv ->].
  apply bind_inv_Return in H as ([teacher_name student_name] & st3 & Hu & H).
  apply lift_inv in Hu as [Hu ->]. apply unpack2_inv in Hu as ->.
  apply bind_inv_Return in H as (parts' & st4 & Htn & H).
  apply lift_inv in Htn as [Htn ->].
  apply bind_inv_Return in H as ([class_name teacher_version] & st5 & Hu & H).
  apply lift_inv in Hu as [Hu ->]. apply unpack2_inv in Hu as ->.
  apply bind_inv_Return in H as (c & st6 & Hc & H).
  apply getattr_models_inv in Hc as [Hc ->].
  apply bind_inv_Return in H as (t & st7 & Ht & H).
  apply call_inv in Ht as (w2 & Ht & ->).
  apply bind_inv_Return in H as (s & st8 & Hs & H).
  apply call_inv in Hs as (w3 & Hs & ->).
  rewrite FaultPredOracle_init_outcome in H. simpl in *.
  exists models, w1, teacher_name, student_name, class_name, teacher_version, c, t, w2, s, w3.
  repeat split; try assumption; inversion H;
    [reflexivity | now rewrite <- !app_assoc].
Qed.

(** *** FaultPredOracle.predict *)

(** C1. [predict] returns the triple of the teacher's prediction, the
    student's binary prediction and the ensemble's prediction on those two:
    the teacher is called first, on the state [predict] starts in, the
    student second, on the world the teacher left and with
    [return_binary=True], the ensemble last, on the two results; these are
    the only external calls made. *)
Theorem predict_returns_teacher_student_ensemble
    (self : nat) (o : FaultPredOracle) (df : DataFrame) (st : State)
    (t s e : bool) (w1 w2 w3 : World) :
  heap st !! self = Some o ->
  t_predict (teacher o) df (world st) = (Return t, w1) ->
  st_predict (student o) df true w1 = (Return s, w2) ->
  e_predict (ensemble o) t s w2 = (Return e, w3) ->
  predict self df st =
    (Return (t, s, e),
     mkState w3 (heap st)
       (calls st ++ [TeacherPredict (teacher o) df;
                     StudentPredict (student o) df true;
                     EnsemblePredict (ensemble o) t s])).
Proof.
  intros Hself Ht Hs He. unfold predict.
  read_self Hself. call_returns Ht.
  read_self Hself. call_returns Hs.
  read_self Hself. call_returns He.
  unfold ret. simpl. now rewrite <- !app_assoc.
Qed.

(** *** FaultPredOracle.batch_predict *)

(** C5, as the code has it. When the teacher's and the student's batch
    predictions have at least as many rows as the ensemble's, [batch_predict]
    returns a Series named ['FAULT'] with the index of the ensemble's
    predictions, whose values are the teacher's, student's (binary) and
    ensemble's values zipped by position; when in addition the three have the
    same index, the triple at every row label is made of the three
    predictions for that same row. *)
Theorem batch_predict_zips_by_position
    (self : nat) (o : FaultPredOracle) (feeder : S3ParquetDataFeeder) (st : State)
    (tp sp ep : Series bool) (w1 w2 w3 : World) :
  heap st !! self = Some o ->
  t_batch_predict (teacher o) feeder (world st) = (Return tp, w1) ->
  st_batch_predict (student o) feeder true w1 = (Return sp, w2) ->
  e_batch_predict (ensemble o) tp sp w2 = (Return ep, w3) ->
  length (s_rows ep) <= length (s_rows tp) ->
  length (s_rows ep) <= length (s_rows sp) ->
  exists res,
    batch_predict self feeder st =
      (Return res,
       mkState w3 (heap st)
         (calls st ++ [TeacherBatchPredict (teacher o) feeder;
                       StudentBatchPredict (student o) feeder true;
                       EnsembleBatchPredict (ensemble o) tp sp])) /\
    s_name res = Some "FAULT" /\
    s_index res = s_index ep /\
    s_values res = zip3 (s_values tp) (s_values sp) (s_values ep) /\
    (s_index tp = s_index ep -> s_index sp = s_index ep -> rows_aligned tp sp ep res).
Proof.
  intros Hself Ht Hs He Hlt Hls.
  assert (Hlen : length (zip3 (s_values tp) (s_values sp) (s_values ep))
                 = length (s_index ep)).
  { unfold s_values, s_index. rewrite zip3_length; rewrite !length_map; auto. }
  eexists. split.
  - unfold batch_predict.
    read_self Hself. call_returns Ht.
    read_self Hself. call_returns Hs.
    read_self Hself. call_returns He.
    unfold lift, Series_new. rewrite Hlen, Nat.eqb_refl.
    simpl. now rewrite <- !app_assoc.
  - split; [reflexivity |]. split; [| split].
    + unfold s_index at 1. simpl. now apply combine_fst.
    + unfold s_values at 1. simpl. now apply combine_snd.
    + intros Hit His l t s e Hin. simpl in Hin.
      now apply (zip3_same_labels (s_rows tp) (s_rows sp) (s_rows ep)).
Qed.

(** C10. [predict] and [batch_predict] leave every oracle object, the one
    they are called on included, with the fields it had: teacher, student,
    ensemble, version, general type and unique type group are the same after
    the call as before, whether the call returns or raises. *)
Theorem predict_and_batch_predict_keep_the_oracle
    (self : nat) (df : DataFrame) (feeder : S3ParquetDataFeeder) (st : State) :
  heap (snd (predict self df st)) = heap st /\
  heap (snd (batch_predict self feeder st)) = heap st.
Proof.
  split.
  - assert (K : keeps_heap (predict self df : M _)) by (unfold predict; frame).
    apply K.
  - assert (K : keeps_heap (batch_predict self feeder : M _))
      by (unfold batch_predict; frame).
    apply K.
Qed.

(** *** FaultPredOracle.load, list_versions and __init__ *)


(** C7. [list_versions] is [TimeSeriesDLFaultPredStudent.list_versions()]: it
    makes that one call and hands on its outcome, the same list when it
    returns one. *)
Theorem list_versions_is_student_list_versions
    (st : State) (r : Outcome (list string)) (w : World) :
  Student_list_versions fw (world st) = (r, w) ->
  list_versions fw st = (r, mkState w (heap st) (calls st ++ [StudentListVersions])).
Proof. intros H. unfold list_versions. now apply call_outcome. Qed.





(** C9. Every oracle returned by [load] has as its ensemble the
    [UnanimousFaultPredEnsemble] instance that is the default of the
    constructor; the only external calls of [load] are the import of
    [ai.models], the teacher class's [load] and the student's [load], none of
    which yields an ensemble. *)
Theorem load_uses_default_ensemble (v : string) (st : State) (r : nat) (st' : State) :
  load fw v st = (Return r, st') ->
  exists o,
    heap st' !! r = Some o /\
    ensemble o = UnanimousFaultPredEnsemble_instance fw /\
    exists class_name (c : TeacherClass) teacher_version,
      calls st' = (calls st ++ [ImportAiModels; TeacherClassLoad class_name c teacher_version;
                                StudentLoad v])%list.
Proof.
  intros H.
  apply load_inv in H
    as (models & w1 & tn & sn & cn & tv & c & t & w2 & s & w3
        & _ & _ & _ & _ & _ & _ & -> & ->).
  eexists. split; [simpl; now apply list_lookup_middle |].
  split; [reflexivity |]. now exists cn, c, tv.
Qed.

(** *** Exceptions *)

(** A version that is not well formed makes [load] raise ValueError as soon
    as [ai.models] is imported; no model is loaded. *)
Lemma load_malformed (v : string) (st : State) models w1 :
  import_ai_models fw (world st) = (Return models, w1) ->
  malformed v ->
  exists msg,
    load fw v st =
      (Raise (ValueError msg), mkState w1 (heap st) (calls st ++ [ImportAiModels])).
Proof.
  intros Himp [parts Hv Hlen | tn sn parts Hv Htn Hlen]; rewrite load_unfold;
    call_returns Himp; rewrite Hv; step_by ltac:(reflexivity).
  - destruct (unpack2_Raise parts Hlen) as [msg Hmsg]. exists msg.
    stop_by ltac:(unfold lift; rewrite Hmsg; reflexivity). reflexivity.
  - step_by ltac:(reflexivity). rewrite Htn. step_by ltac:(reflexivity).
    destruct (unpack2_Raise parts Hlen) as [msg Hmsg]. exists msg.
    stop_by ltac:(unfold lift; rewrite Hmsg; reflexivity). reflexivity.
Qed.

(** An exception of a held model is the outcome of [predict]. *)
Lemma predict_propagates (self : nat) (o : FaultPredOracle) (df : DataFrame) (st : State) :
  heap st !! self = Some o ->
  (forall e w1,
     t_predict (teacher o) df (world st) = (Raise e, w1) ->
     fst (predict self df st) = Raise e) /\
  (forall t w1 e w2,
     t_predict (teacher o) df (world st) = (Return t, w1) ->
     st_predict (student o) df true w1 = (Raise e, w2) ->
     fst (predict self df st) = Raise e) /\
  (forall t w1 s w2 e w3,
     t_predict (teacher o) df (world st) = (Return t, w1) ->
     st_predict (student o) df true w1 = (Return s, w2) ->
     e_predict (ensemble o) t s w2 = (Raise e, w3) ->
     fst (predict self df st) = Raise e).
Proof.
  intros Hself. repeat split.
  - intros e w1 Ht. unfold predict. read_self Hself. call_raises Ht. reflexivity.
  - intros t w1 e w2 Ht Hs. unfold predict.
    read_self Hself. call_returns Ht. read_self Hself. call_raises Hs. reflexivity.
  - intros t w1 s w2 e w3 Ht Hs He. unfold predict.
    read_self Hself. call_returns Ht. read_self Hself. call_returns Hs.
    read_self Hself. call_raises He. reflexivity.
Qed.

(** An exception of a held model is the outcome of [batch_predict]. *)
Lemma batch_predict_propagates (self : nat) (o : FaultPredOracle)
    (feeder : S3ParquetDataFeeder) (st : State) :
  heap st !! self = Some o ->
  (forall e w1,
     t_batch_predict (teacher o) feeder (world st) = (Raise e, w1) ->
     fst (batch_predict self feeder st) = Raise e) /\
  (forall tp w1 e w2,
     t_batch_predict (teacher o) feeder (world st) = (Return tp, w1) ->
     st_batch_predict (student o) feeder true w1 = (Raise e, w2) ->
     fst (batch_predict self feeder st) = Raise e) /\
  (forall tp w1 sp w2 e w3,
     t_batch_predict (teacher o) feeder (world st) = (Return tp, w1) ->
     st_batch_predict (student o) feeder true w1 = (Return sp, w2) ->
     e_batch_predict (ensemble o) tp sp w2 = (Raise e, w3) ->
     fst (batch_predict self feeder st) = Raise e).
Proof.
  intros Hself. repeat split.
  - intros e w1 Ht. unfold batch_predict. read_self Hself. call_raises Ht. reflexivity.
  - intros tp w1 e w2 Ht Hs. unfold batch_predict.
    read_self Hself. call_returns Ht. read_self Hself. call_raises Hs. reflexivity.
  - intros tp w1 sp w2 e w3 Ht Hs He. unfold batch_predict.
    read_self Hself. call_returns Ht. read_self Hself. call_returns Hs.
    read_self Hself. call_raises He. reflexivity.
Qed.

(** An exception while the student is built or tuned is the outcome of
    [build_model]. *)
Lemma build_model_propagates (self : FaultPredOracleModeler) (st : State) :
  (forall e w1,
     StudentModeler_new fw (m_teacher self)
       (student_input_cat_cols self) (student_input_num_cols self)
       (student_input_subsampling_factor self) (student_train_date_range self)
       (world st) = (Raise e, w1) ->
     fst (build_model fw self st) = Raise e) /\
  (forall sm w1 e w2,
     StudentModeler_new fw (m_teacher self)
       (student_input_cat_cols self) (student_input_num_cols self)
       (student_input_subsampling_factor self) (student_train_date_range self)
       (world st) = (Return sm, w1) ->
     sm_build_model sm w1 = (Raise e, w2) ->
     fst (build_model fw self st) = Raise e) /\
  (forall sm w1 stu w2 e w3,
     StudentModeler_new fw (m_teacher self)
       (student_input_cat_cols self) (student_input_num_cols self)
       (student_input_subsampling_factor self) (student_train_date_range self)
       (world st) = (Return sm, w1) ->
     sm_build_model sm w1 = (Return stu, w2) ->
     st_tune_decision_threshold stu (student_tuning_date_range self) w2 = (Raise e, w3) ->
     fst (build_model fw self st) = Raise e).
Proof.
  repeat split.
  - intros e w1 Hnew. unfold build_model. call_raises Hnew. reflexivity.
  - intros sm w1 e w2 Hnew Hb. unfold build_model.
    call_returns Hnew. call_raises Hb. reflexivity.
  - intros sm w1 stu w2 e w3 Hnew Hb Ht. unfold build_model.
    call_returns Hnew. call_returns Hb. call_raises Ht. reflexivity.
Qed.

(** C6. [load] raises on every version for which one of the two splits does
    not give exactly two parts: ValueError from the unpacking once
    [ai.models] is imported, with no model loaded, and the import's own
    exception otherwise.  It raises AttributeError when the teacher's class
    name is not in [ai.models], and the exception of the teacher's or of the
    student's [load] when that fails.  No method handles an exception: an
    exception of any external call made by [list_versions], [predict],
    [batch_predict] or [build_model] is the outcome of the method. *)
Theorem load_failures_propagate (v : string) (st : State) :
  (malformed v -> exists e, fst (load fw v st) = Raise e) /\
  (forall models w1,
     import_ai_models fw (world st) = (Return models, w1) ->
     malformed v ->
     exists msg,
       load fw v st =
         (Raise (ValueError msg), mkState w1 (heap st) (calls st ++ [ImportAiModels]))) /\
  (forall e w1,
     import_ai_models fw (world st) = (Raise e, w1) ->
     fst (load fw v st) = Raise e) /\
  (forall models w1 teacher_name student_name class_name teacher_version,
     import_ai_models fw (world st) = (Return models, w1) ->
     PyStr.split "---" v = Return [teacher_name; student_name] ->
     PyStr.split "--" teacher_name = Return [class_name; teacher_version] ->
     (models !! class_name = None ->
      fst (load fw v st) = Raise (AttributeError class_name)) /\
     (forall c e w2,
        models !! class_name = Some c ->
        tc_load c teacher_version w1 = (Raise e, w2) ->
        fst (load fw v st) = Raise e) /\
     (forall c t w2 e w3,
        models !! class_name = Some c ->
        tc_load c teacher_version w1 = (Return t, w2) ->
        Student_load fw v w2 = (Raise e, w3) ->
        fst (load fw v st) = Raise e)) /\
  (forall e w,
     Student_list_versions fw (world st) = (Raise e, w) ->
     fst (list_versions fw st) = Raise e) /\
  (forall (self : nat) (o : FaultPredOracle) (df : DataFrame),
     heap st !! self = Some o ->
     (forall e w1,
        t_predict (teacher o) df (world st) = (Raise e, w1) ->
        fst (predict self df st) = Raise e) /\
     (forall t w1 e w2,
        t_predict (teacher o) df (world st) = (Return t, w1) ->
        st_predict (student o) df true w1 = (Raise e, w2) ->
        fst (predict self df st) = Raise e) /\
     (forall t w1 s w2 e w3,
        t_predict (teacher o) df (world st) = (Return t, w1) ->
        st_predict (student o) df true w1 = (Return s, w2) ->
        e_predict (ensemble o) t s w2 = (Raise e, w3) ->
        fst (predict self df st) = Raise e)) /\
  (forall (self : nat) (o : FaultPredOracle) (feeder : S3ParquetDataFeeder),
     heap st !! self = Some o ->
     (forall e w1,
        t_batch_predict (teacher o) feeder (world st) = (Raise e, w1) ->
        fst (batch_predict self feeder st) = Raise e) /\
     (forall tp w1 e w2,
        t_batch_predict (teacher o) feeder (world st) = (Return tp, w1) ->
        st_batch_predict (student o) feeder true w1 = (Raise e, w2) ->
        fst (batch_predict self feeder st) = Raise e) /\
     (forall tp w1 sp w2 e w3,
        t_batch_predict (teacher o) feeder (world st) = (Return tp, w1) ->
        st_batch_predict (student o) feeder true w1 = (Return sp, w2) ->
        e_batch_predict (ensemble o) tp sp w2 = (Raise e, w3) ->
        fst (batch_predict self feeder st) = Raise e)) /\
  (forall (self : FaultPredOracleModeler),
     (forall e w1,
        StudentModeler_new fw (m_teacher self)
          (student_input_cat_cols self) (student_input_num_cols self)
          (student_input_subsampling_factor self) (student_train_date_range self)
          (world st) = (Raise e, w1) ->
        fst (build_model fw self st) = Raise e) /\
     (forall sm w1 e w2,
        StudentModeler_new fw (m_teacher self)
          (student_input_cat_cols self) (student_input_num_cols self)
          (student_input_subsampling_factor self) (student_train_date_range self)
          (world st) = (Return sm, w1) ->
        sm_build_model sm w1 = (Raise e, w2) ->
        fst (build_model fw self st) = Raise e) /\
     (forall sm w1 stu w2 e w3,
        StudentModeler_new fw (m_teacher self)
          (student_input_cat_cols self) (student_input_num_cols self)
          (student_input_subsampling_factor self) (student_train_date_range self)
          (world st) = (Return sm, w1) ->
        sm_build_model sm w1 = (Return stu, w2) ->
        st_tune_decision_threshold stu (student_tuning_date_range self) w2 = (Raise e, w3) ->
        fst (build_model fw self st) = Raise e)).
Proof.
  split; [| split; [| split; [| split; [| split; [| split; [| split]]]]]].
  - intros Hbad.
    destruct (import_ai_models fw (world st)) as [[models | e] w1] eqn:Himp.
    + destruct (load_malformed v st models w1 Himp Hbad) as [msg ->]. eauto.
    + exists e. rewrite load_unfold. call_raises Himp. reflexivity.
  - intros models w1 Himp Hbad. exact (load_malformed v st models w1 Himp Hbad).
  - intros e w1 Himp. rewrite load_unfold. call_raises Himp. reflexivity.
  - intros models w1 tn sn cn tv Himp Hv Htn.
    repeat split.
    + intros Hc. load_splits Himp Hv Htn.
      unfold getattr_models. rewrite Hc. reflexivity.
    + intros c e w2 Hc Ht. load_splits Himp Hv Htn.
      unfold getattr_models. rewrite Hc.
      step_by ltac:(reflexivity). call_raises Ht. reflexivity.
    + intros c t w2 e w3 Hc Ht Hs. load_splits Himp Hv Htn.
      unfold getattr_models. rewrite Hc.
      step_by ltac:(reflexivity). call_returns Ht. call_raises Hs. reflexivity.
  - intros e w H. unfold list_versions. now rewrite (call_outcome _ _ _ _ _ H).
  - intros self o df. apply predict_propagates.
  - intros self o feeder. apply batch_predict_propagates.
  - intros self. apply build_model_propagates.
Qed.

(** *** FaultPredOracleModeler.build_model *)

(** C3. [build_model] first builds a student: it creates a
    [TimeSeriesDLFaultPredStudentModeler] from the stored teacher, categorical
    and numerical input columns, subsampling factor and training date range
    and calls its [build_model]; then it calls [tune_decision_threshold] of
    that student with the stored tuning date range, on the world the training
    left.  These are its only external calls, in this order. *)
Theorem build_model_trains_then_tunes
    (self : FaultPredOracleModeler) (st : State)
    (sm : StudentModeler) (stu : TimeSeriesDLFaultPredStudent) (u : unit)
    (w1 w2 w3 : World) :
  StudentModeler_new fw (m_teacher self)
    (student_input_cat_cols self) (student_input_num_cols self)
    (student_input_subsampling_factor self) (student_train_date_range self)
    (world st) = (Return sm, w1) ->
  sm_build_model sm w1 = (Return stu, w2) ->
  st_tune_decision_threshold stu (student_tuning_date_range self) w2 = (Return u, w3) ->
  build_model fw self st =
    (Return None,
     mkState w3 (heap st)
       (calls st ++ [StudentModelerNew (m_teacher self)
                       (student_input_cat_cols self) (student_input_num_cols self)
                       (student_input_subsampling_factor self)
                       (student_train_date_range self);
                     StudentModelerBuildModel sm;
                     TuneDecisionThreshold stu (student_tuning_date_range self)])).
Proof.
  intros Hnew Hbuild Htune. unfold build_model.
  call_returns Hnew. call_returns Hbuild. call_returns Htune.
  unfold ret. simpl. now rewrite <- !app_assoc.
Qed.

(** C4. [build_model] never returns an oracle: whenever it returns, the value
    is [None], and it does return when the three external calls do; it
    creates no [FaultPredOracle] object, and the student it trained and tuned
    is not part of what it returns. *)
Theorem build_model_returns_None (self : FaultPredOracleModeler) (st : State) :
  (forall v st', build_model fw self st = (Return v, st') -> v = None) /\
  (forall sm stu u w1 w2 w3,
     StudentModeler_new fw (m_teacher self)
       (student_input_cat_cols self) (student_input_num_cols self)
       (student_input_subsampling_factor self) (student_train_date_range self)
       (world st) = (Return sm, w1) ->
     sm_build_model sm w1 = (Return stu, w2) ->
     st_tune_decision_threshold stu (student_tuning_date_range self) w2 = (Return u, w3) ->
     fst (build_model fw self st) = Return None) /\
  heap (snd (build_model fw self st)) = heap st.
Proof.
  split; [| split].
  - intros v st' H. unfold build_model in H.
    apply bind_inv_Return in H as (sm & st1 & _ & H).
    apply bind_inv_Return in H as (stu & st2 & _ & H).
    apply bind_inv_Return in H as (u & st3 & _ & H).
    unfold ret in H. congruence.
  - intros sm stu u w1 w2 w3 Hnew Hbuild Htune. unfold build_model.
    call_returns Hnew. call_returns Hbuild. call_returns Htune. reflexivity.
  - assert (K : keeps_heap (build_model fw self)) by (unfold build_model; frame).
    apply K.
Qed.

End Claims.

(** C1 on the concrete framework: a reading of 95 is a fault for the student
    only. *)
Lemma predict_returns_teacher_student_ensemble_witness :
  predict 0 95%Z (Demo.demo_state 0) =
    (Return (false, true, false),
     mkState 3 [Demo.demo_oracle 0]
       [TeacherPredict Demo.demo_teacher 95%Z;
        StudentPredict (Demo.demo_student 0 "DemoTeacher--1.0---20210101") 95%Z true;
        EnsemblePredict Demo.demo_ensemble false true]).
Proof.
  apply (predict_returns_teacher_student_ensemble 0 (Demo.demo_oracle 0) 95%Z
           (Demo.demo_state 0) false true false 1 2 3); reflexivity.
Defined.

(** C3 on the concrete framework. *)
Lemma build_model_trains_then_tunes_witness :
  build_model Demo.demo_framework Demo.demo_modeler (Demo.demo_state 0) =
    (Return None,
     mkState 3 [Demo.demo_oracle 0]
       [StudentModelerNew Demo.demo_teacher ["site"] ["temperature"; "pressure"] 6
          ("2020-01-01", "2020-06-30");
        StudentModelerBuildModel
          (mkStudentModeler (Demo.served (Demo.demo_student 0 "20210101")));
        TuneDecisionThreshold (Demo.demo_student 0 "20210101") ("2020-07-01", "2020-12-31")]).
Proof.
  apply (build_model_trains_then_tunes Demo.demo_framework Demo.demo_modeler
           (Demo.demo_state 0)
           (mkStudentModeler (Demo.served (Demo.demo_student 0 "20210101")))
           (Demo.demo_student 0 "20210101") tt 1 2 3); reflexivity.
Defined.

(** C4 on the concrete framework: training and tuning succeed and the value
    returned is [None]. *)
Lemma build_model_returns_None_witness :
  fst (build_model Demo.demo_framework Demo.demo_modeler (Demo.demo_state 0)) = Return None.
Proof.
  apply (proj1 (proj2 (build_model_returns_None Demo.demo_framework Demo.demo_modeler
                         (Demo.demo_state 0)))
           (mkStudentModeler (Demo.served (Demo.demo_student 0 "20210101")))
           (Demo.demo_student 0 "20210101") tt 1 2 3); reflexivity.
Defined.


(** C5, as amended, on the concrete framework: a student without lag gives the
    three predictions the same index. *)
Lemma batch_predict_zips_by_position_witness :
  exists res,
    batch_predict 0 Demo.demo_feeder (Demo.demo_state 0) =
      (Return res,
       mkState 3 [Demo.demo_oracle 0]
         [TeacherBatchPredict Demo.demo_teacher Demo.demo_feeder;
          StudentBatchPredict (Demo.demo_student 0 "DemoTeacher--1.0---20210101")
            Demo.demo_feeder true;
          EnsembleBatchPredict Demo.demo_ensemble
            (mkSeries None [("2021-01-01", true); ("2021-01-02", false)])
            (mkSeries None [("2021-01-01", true); ("2021-01-02", false)])]) /\
    s_name res = Some "FAULT" /\
    s_index res = ["2021-01-01"; "2021-01-02"] /\
    s_values res = [(true, true, true); (false, false, false)] /\
    rows_aligned
      (mkSeries None [("2021-01-01", true); ("2021-01-02", false)])
      (mkSeries None [("2021-01-01", true); ("2021-01-02", false)])
      (mkSeries None [("2021-01-01", true); ("2021-01-02", false)])
      res.
Proof.
  destruct (batch_predict_zips_by_position 0 (Demo.demo_oracle 0) Demo.demo_feeder
              (Demo.demo_state 0)
              (mkSeries None [("2021-01-01", true); ("2021-01-02", false)])
              (mkSeries None [("2021-01-01", true); ("2021-01-02", false)])
              (mkSeries None [("2021-01-01", true); ("2021-01-02", false)])
              1 2 3)
    as (res & Hrun & Hname & Hindex & Hvalues & Haligned);
    try reflexivity; try (simpl; lia).
  exists res. split; [exact Hrun |]. split; [exact Hname |].
  split; [exact Hindex |]. split; [exact Hvalues |].
  apply Haligned; reflexivity.
Defined.

(** C5 as stated fails: with a student that has no prediction for the first
    day, the ensemble's index starts at the second day, and the row of the
    second day gets the teacher's value of the first day. *)
Lemma batch_predict_rows_not_aligned :
  exists tp w1 sp w2 ep w3 res st',
    t_batch_predict (teacher (Demo.demo_oracle 1)) Demo.demo_feeder
      (world (Demo.demo_state 1)) = (Return tp, w1) /\
    st_batch_predict (student (Demo.demo_oracle 1)) Demo.demo_feeder true w1
      = (Return sp, w2) /\
    e_batch_predict (ensemble (Demo.demo_oracle 1)) tp sp w2 = (Return ep, w3) /\
    batch_predict 0 Demo.demo_feeder (Demo.demo_state 1) = (Return res, st') /\
    s_name res = Some "FAULT" /\
    s_index res = s_index ep /\
    ~ rows_aligned tp sp ep res.
Proof.
  eexists _, _, _, _, _, _, _, _.
  split; [reflexivity |]. split; [reflexivity |]. split; [reflexivity |].
  split; [reflexivity |]. split; [reflexivity |]. split; [reflexivity |].
  intros Haligned.
  destruct (Haligned "2021-01-02" true false false) as [Hin _].
  - simpl. now left.
  - simpl in Hin. destruct Hin as [Hin | [Hin | []]]; discriminate Hin.
Qed.

(** C6 on the concrete framework: a version without ['---']. *)
Lemma load_failures_propagate_witness :
  exists msg,
    load Demo.demo_framework "DemoTeacher--1.0" (Demo.demo_state 0) =
      (Raise (ValueError msg),
       mkState 1 [Demo.demo_oracle 0] [ImportAiModels]).
Proof.
  apply (proj1 (proj2 (load_failures_propagate Demo.demo_framework "DemoTeacher--1.0"
                         (Demo.demo_state 0)))
           {[ "DemoTeacher" := Demo.demo_teacher_class ]} 1).
  - reflexivity.
  - apply (malformed_outer "DemoTeacher--1.0" ["DemoTeacher--1.0"]).
    + reflexivity.
    + simpl. lia.
Defined.

(** C7 on the concrete framework. *)
Lemma list_versions_is_student_list_versions_witness :
  list_versions Demo.demo_framework (Demo.demo_state 0) =
    (Return ["DemoTeacher--1.0---20210101"],
     mkState 1 [Demo.demo_oracle 0] [StudentListVersions]).
Proof.
  apply (list_versions_is_student_list_versions Demo.demo_framework (Demo.demo_state 0)
           (Return ["DemoTeacher--1.0---20210101"]) 1).
  reflexivity.
Defined.



(** C9 on the concrete framework. *)
Lemma load_uses_default_ensemble_witness :
  exists o,
    heap (snd (load Demo.demo_framework "DemoTeacher--1.0---20210101" (Demo.demo_state 0)))
      !! 1 = Some o /\
    ensemble o = Demo.demo_ensemble /\
    exists class_name c teacher_version,
      calls (snd (load Demo.demo_framework "DemoTeacher--1.0---20210101"
                    (Demo.demo_state 0)))
      = [ImportAiModels; TeacherClassLoad class_name c teacher_version;
         StudentLoad "DemoTeacher--1.0---20210101"].
Proof.
  apply (load_uses_default_ensemble Demo.demo_framework
           "DemoTeacher--1.0---20210101" (Demo.demo_state 0) 1
           (snd (load Demo.demo_framework "DemoTeacher--1.0---20210101"
                   (Demo.demo_state 0)))).
  vm_compute. reflexivity.
Defined.

(** ** Version identifiers made of dash-free parts *)

Section VersionScheme.

Lemma append_nil_l (s : string) : "" ++ s = s.
Proof. reflexivity. Qed.

(** A separator that begins with a dash does not begin at another character. *)
Lemma startswith_other (sep s : string) (c : ascii) :
  Ascii.eqb c "-" = false -> PyStr.startswith (String "-" sep) (String c s) = false.
Proof.
  intros Hc. cbn [PyStr.startswith]. rewrite Ascii.eqb_sym in Hc. now rewrite Hc.
Qed.

(** The scan collects a dash-free stretch whole. *)
Lemma split_scan_dash_free (sep s cur rest : string) :
  dash_free s = true ->
  PyStr.split_scan (String "-" sep) 0 cur (s ++ rest)
  = PyStr.split_scan (String "-" sep) 0 (cur ++ s) rest.
Proof.
  revert cur. induction s as [| c s IH]; intros cur Hs.
  - now rewrite append_nil_r.
  - simpl in Hs. apply andb_prop in Hs as [Hc Hs]. apply negb_true_iff in Hc.
    rewrite append_cons. cbn [PyStr.split_scan].
    rewrite (startswith_other _ _ _ Hc), IH by exact Hs.
    now rewrite append_assoc.
Qed.

(** A dash-free string is one part. *)
Lemma split_dash_free (sep s : string) :
  dash_free s = true -> PyStr.split (String "-" sep) s = Return [s].
Proof.
  intros Hs. unfold PyStr.split.
  rewrite <- (append_nil_r s) at 1. now rewrite split_scan_dash_free.
Qed.



(** [(a + '---' + c).split('---')] for a dash-free [a] and any [c]: [a],
    then the parts of [c]. *)
Lemma split_after_dash_free_name (a c : string) :
  dash_free a = true ->
  PyStr.split_scan "---" 0 "" (a ++ "---" ++ c) = a :: PyStr.split_scan "---" 0 "" c.
Proof.
  intros Ha.
  rewrite split_scan_dash_free by exact Ha.
  rewrite !append_cons, !append_nil_l. cbn [PyStr.split_scan PyStr.startswith].
  rewrite !Ascii.eqb_refl. cbn [String.length Nat.sub]. reflexivity.
Qed.

(** A name without a dash, followed by ['---'] and anything, is not a
    well-formed version: either what follows splits further, or the name
    itself is not of the form [class--teacher_version]. *)
Lemma malformed_dash_free_name (a c : string) :
  dash_free a = true -> malformed (a ++ "---" ++ c).
Proof.
  intros Ha.
  destruct (split_scan_cons "---" 0 "" c) as (p & ps & Hc).
  destruct ps as [| q ps].
  - apply (malformed_inner _ a p [a]).
    + unfold PyStr.split. now rewrite split_after_dash_free_name, Hc.
    + now apply split_dash_free.
    + simpl. lia.
  - apply (malformed_outer _ (a :: p :: q :: ps)).
    + unfold PyStr.split. now rewrite split_after_dash_free_name, Hc.
    + simpl. lia.
Qed.

End VersionScheme.

(** ** Runs of the methods, for the properties below *)

Section Runs.

Context {World DataFrame S3ParquetDataFeeder Label : Type}.
Context (fw : @Framework World DataFrame S3ParquetDataFeeder Label).

Local Abbreviation State := (@State World DataFrame S3ParquetDataFeeder Label).
Local Abbreviation FaultPredOracle := (@FaultPredOracle World DataFrame S3ParquetDataFeeder Label).
Local Abbreviation M := (@M World DataFrame S3ParquetDataFeeder Label).

Lemma keeps_heap_on_raise_of_keeps_heap {A : Type} (m : M A) :
  keeps_heap m -> keeps_heap_on_raise m.
Proof. intros K st e st' H. specialize (K st). now rewrite H in K. Qed.

Lemma keeps_heap_on_raise_bind {A B : Type} (m : M A) (k : A -> M B) :
  keeps_heap m -> (forall a, keeps_heap_on_raise (k a)) -> keeps_heap_on_raise (bind m k).
Proof.
  intros Km Kk st e st' H. unfold bind in H. specialize (Km st).
  destruct (m st) as [[a | e1] st1]; simpl in Km.
  - rewrite <- Km. now apply (Kk a st1 e).
  - inversion H; subst. exact Km.
Qed.

Lemma keeps_heap_getattr_models (models : gmap string TeacherClass) (name : string) :
  keeps_heap (getattr_models models name : M _).
Proof. intros st. unfold getattr_models. now destruct (models !! name). Qed.

(** [load] leaves the oracle objects as they are when it raises. *)
Lemma load_keeps_heap_on_raise (v : string) : keeps_heap_on_raise (load fw v).
Proof.
  rewrite load_unfold.
  apply keeps_heap_on_raise_bind; [auto with frame | intros models].
  apply keeps_heap_on_raise_bind; [auto with frame | intros parts].
  apply keeps_heap_on_raise_bind; [auto with frame | intros [teacher_name student_name]].
  apply keeps_heap_on_raise_bind; [auto with frame | intros parts'].
  apply keeps_heap_on_raise_bind; [auto with frame | intros [class_name teacher_version]].
  apply keeps_heap_on_raise_bind; [apply keeps_heap_getattr_models | intros c].
  apply keeps_heap_on_raise_bind; [auto with frame | intros t].
  apply keeps_heap_on_raise_bind; [auto with frame | intros s].
  intros st e st' H. rewrite FaultPredOracle_init_outcome in H. discriminate H.
Qed.


(** The run of [batch_predict] when the three models answer and neither the
    teacher nor the student has fewer rows than the ensemble. *)
Lemma batch_predict_run (self : nat) (o : FaultPredOracle) (feeder : S3ParquetDataFeeder)
    (st : State) (tp sp ep : Series bool) (w1 w2 w3 : World) :
  heap st !! self = Some o ->
  t_batch_predict (teacher o) feeder (world st) = (Return tp, w1) ->
  st_batch_predict (student o) feeder true w1 = (Return sp, w2) ->
  e_batch_predict (ensemble o) tp sp w2 = (Return ep, w3) ->
  length (s_rows ep) <= length (s_rows tp) ->
  length (s_rows ep) <= length (s_rows sp) ->
  batch_predict self feeder st =
    (Return (mkSeries (Some "FAULT")
               (combine (s_index ep) (zip3 (s_values tp) (s_values sp) (s_values ep)))),
     mkState w3 (heap st)
       (calls st ++ [TeacherBatchPredict (teacher o) feeder;
                     StudentBatchPredict (student o) feeder true;
                     EnsembleBatchPredict (ensemble o) tp sp])).
Proof.
  intros Hself Ht Hs He Hlt Hls.
  assert (Hlen : length (zip3 (s_values tp) (s_values sp) (s_values ep))
                 = length (s_index ep)).
  { unfold s_values, s_index. rewrite zip3_length; rewrite !length_map; auto. }
  unfold batch_predict.
  read_self Hself. call_returns Ht.
  read_self Hself. call_returns Hs.
  read_self Hself. call_returns He.
  unfold lift, Series_new. rewrite Hlen, Nat.eqb_refl.
  simpl. now rewrite <- !app_assoc.
Qed.

End Runs.

(** ** Rows by position *)

Section Positions.

Context {A B C L : Type}.

Lemma combine_lookup (ls : list L) (xs : list A) (i : nat) (l : L) (x : A) :
  combine ls xs !! i = Some (l, x) <-> ls !! i = Some l /\ xs !! i = Some x.
Proof.
  revert xs i. induction ls as [| l0 ls IH]; intros xs i.
  - simpl. split; [intros H | intros [H _]]; discriminate H.
  - destruct xs as [| x0 xs].
    + simpl. split; [intros H | intros [_ H]]; discriminate H.
    + destruct i as [| i]; simpl.
      * split; [intros H; inversion H; auto | intros [H1 H2]; congruence].
      * apply IH.
Qed.

Lemma zip3_lookup (xs : list A) (ys : list B) (zs : list C) (i : nat) x y z :
  zip3 xs ys zs !! i = Some (x, y, z)
  <-> xs !! i = Some x /\ ys !! i = Some y /\ zs !! i = Some z.
Proof.
  revert ys zs i. induction xs as [| x0 xs IH]; intros ys zs i.
  - simpl. split; [intros H | intros [H _]]; discriminate H.
  - destruct ys as [| y0 ys].
    + simpl. split; [intros H | intros (_ & H & _)]; discriminate H.
    + destruct zs as [| z0 zs].
      * simpl. split; [intros H | intros (_ & _ & H)]; discriminate H.
      * destruct i as [| i]; simpl.
        -- split; [intros H; inversion H; auto | intros (H1 & H2 & H3); congruence].
        -- apply IH.
Qed.

End Positions.

(** ** Further properties of the methods *)

Section Coverage.

Context {World DataFrame S3ParquetDataFeeder Label : Type}.
Context (fw : @Framework World DataFrame S3ParquetDataFeeder Label).

Local Abbreviation State := (@State World DataFrame S3ParquetDataFeeder Label).
Local Abbreviation FaultPredOracle := (@FaultPredOracle World DataFrame S3ParquetDataFeeder Label).
Local Abbreviation TeacherClass := (@TeacherClass World DataFrame S3ParquetDataFeeder Label).


(** X2. A version without any dash, the empty string included, and a version
    [teacher_name---student_name] whose teacher name has no dash, whatever the
    student's name, are both refused: once [ai.models] is imported [load]
    raises ValueError, and it loads no teacher and no student. *)
Theorem load_refuses_names_without_dashes
    (teacher_name student_name : string) (st : State)
    (models : gmap string TeacherClass) (w1 : World) :
  dash_free teacher_name = true ->
  import_ai_models fw (world st) = (Return models, w1) ->
  (exists msg,
     load fw teacher_name st =
       (Raise (ValueError msg), mkState w1 (heap st) (calls st ++ [ImportAiModels]))) /\
  (exists msg,
     load fw (teacher_name ++ "---" ++ student_name) st =
       (Raise (ValueError msg), mkState w1 (heap st) (calls st ++ [ImportAiModels]))).
Proof.
  intros Ht Himp. split.
  - apply (load_malformed fw _ st models w1 Himp).
    apply (malformed_outer _ [teacher_name]).
    + now apply split_dash_free.
    + simpl. lia.
  - apply (load_malformed fw _ st models w1 Himp).
    now apply malformed_dash_free_name.
Qed.

(** X3. [load] never touches the oracles that exist: when it raises, the
    oracle objects are those there were; when it returns, its result is a
    reference that was free, and the oracle objects are those there were
    followed by the new one. *)
Theorem load_adds_one_oracle_or_none (v : string) (st : State) :
  (forall e st', load fw v st = (Raise e, st') -> heap st' = heap st) /\
  (forall r st',
     load fw v st = (Return r, st') ->
     heap st !! r = None /\
     exists o, heap st' = (heap st ++ [o])%list /\ heap st' !! r = Some o).
Proof.
  split.
  - intros e st' H. exact (load_keeps_heap_on_raise fw v st e st' H).
  - intros r st' H.
    apply load_inv in H
      as (models & w1 & tn & sn & cn & tv & c & t & w2 & s & w3
          & _ & _ & _ & _ & _ & _ & -> & ->).
    split; [now apply lookup_ge_None |].
    eexists. split; [reflexivity |]. simpl. now apply list_lookup_middle.
Qed.

(** X4. Two oracles loaded one after the other are two objects, and both hold
    the same ensemble, the one default instance of the constructor; the
    second [load] leaves the first oracle as it was. *)
Theorem two_loads_share_the_default_ensemble
    (v1 v2 : string) (st st1 st2 : State) (r1 r2 : nat) :
  load fw v1 st = (Return r1, st1) ->
  load fw v2 st1 = (Return r2, st2) ->
  r1 <> r2 /\
  exists o1 o2,
    heap st1 !! r1 = Some o1 /\
    heap st2 !! r1 = Some o1 /\
    heap st2 !! r2 = Some o2 /\
    ensemble o1 = UnanimousFaultPredEnsemble_instance fw /\
    ensemble o2 = ensemble o1.
Proof.
  intros H1 H2.
  apply load_inv in H1
    as (models & w1 & tn & sn & cn & tv & c & t & w2 & s & w3
        & _ & _ & _ & _ & _ & _ & -> & ->).
  apply load_inv in H2
    as (models' & w1' & tn' & sn' & cn' & tv' & c' & t' & w2' & s' & w3'
        & _ & _ & _ & _ & _ & _ & -> & ->).
  simpl. split.
  - rewrite length_app. simpl. lia.
  - eexists _, _. split; [now apply list_lookup_middle |].
    split; [rewrite lookup_app_l; [now apply list_lookup_middle |] |].
    + rewrite length_app. simpl. lia.
    + split; [now apply list_lookup_middle |]. split; reflexivity.
Qed.


(** X6. [predict] stops at the first model that fails: when the teacher
    raises, the student and the ensemble are not called; when the student
    raises, the ensemble is not called; the exception comes out with the world
    as the failing call left it. *)
Theorem predict_stops_at_first_failure
    (self : nat) (o : FaultPredOracle) (df : DataFrame) (st : State) :
  heap st !! self = Some o ->
  (forall e w1,
     t_predict (teacher o) df (world st) = (Raise e, w1) ->
     predict self df st =
       (Raise e, mkState w1 (heap st) (calls st ++ [TeacherPredict (teacher o) df]))) /\
  (forall t w1 e w2,
     t_predict (teacher o) df (world st) = (Return t, w1) ->
     st_predict (student o) df true w1 = (Raise e, w2) ->
     predict self df st =
       (Raise e,
        mkState w2 (heap st)
          (calls st ++ [TeacherPredict (teacher o) df;
                        StudentPredict (student o) df true]))) /\
  (forall t w1 s w2 e w3,
     t_predict (teacher o) df (world st) = (Return t, w1) ->
     st_predict (student o) df true w1 = (Return s, w2) ->
     e_predict (ensemble o) t s w2 = (Raise e, w3) ->
     predict self df st =
       (Raise e,
        mkState w3 (heap st)
          (calls st ++ [TeacherPredict (teacher o) df;
                        StudentPredict (student o) df true;
                        EnsemblePredict (ensemble o) t s]))).
Proof.
  intros Hself. split; [| split].
  - intros e w1 Ht. unfold predict. read_self Hself. call_raises Ht. reflexivity.
  - intros t w1 e w2 Ht Hs. unfold predict.
    read_self Hself. call_returns Ht. read_self Hself. call_raises Hs.
    simpl. now rewrite <- !app_assoc.
  - intros t w1 s w2 e w3 Ht Hs He. unfold predict.
    read_self Hself. call_returns Ht. read_self Hself. call_returns Hs.
    read_self Hself. call_raises He.
    simpl. now rewrite <- !app_assoc.
Qed.

(** X7. [batch_predict] stops at the first model that fails, and builds no
    Series then: after a failure of the teacher neither the student nor the
    ensemble is called, after a failure of the student the ensemble is not
    called. *)
Theorem batch_predict_stops_at_first_failure
    (self : nat) (o : FaultPredOracle) (feeder : S3ParquetDataFeeder) (st : State) :
  heap st !! self = Some o ->
  (forall e w1,
     t_batch_predict (teacher o) feeder (world st) = (Raise e, w1) ->
     batch_predict self feeder st =
       (Raise e,
        mkState w1 (heap st) (calls st ++ [TeacherBatchPredict (teacher o) feeder]))) /\
  (forall tp w1 e w2,
     t_batch_predict (teacher o) feeder (world st) = (Return tp, w1) ->
     st_batch_predict (student o) feeder true w1 = (Raise e, w2) ->
     batch_predict self feeder st =
       (Raise e,
        mkState w2 (heap st)
          (calls st ++ [TeacherBatchPredict (teacher o) feeder;
                        StudentBatchPredict (student o) feeder true]))) /\
  (forall tp w1 sp w2 e w3,
     t_batch_predict (teacher o) feeder (world st) = (Return tp, w1) ->
     st_batch_predict (student o) feeder true w1 = (Return sp, w2) ->
     e_batch_predict (ensemble o) tp sp w2 = (Raise e, w3) ->
     batch_predict self feeder st =
       (Raise e,
        mkState w3 (heap st)
          (calls st ++ [TeacherBatchPredict (teacher o) feeder;
                        StudentBatchPredict (student o) feeder true;
                        EnsembleBatchPredict (ensemble o) tp sp]))).
Proof.
  intros Hself. split; [| split].
  - intros e w1 Ht. unfold batch_predict. read_self Hself. call_raises Ht. reflexivity.
  - intros tp w1 e w2 Ht Hs. unfold batch_predict.
    read_self Hself. call_returns Ht. read_self Hself. call_raises Hs.
    simpl. now rewrite <- !app_assoc.
  - intros tp w1 sp w2 e w3 Ht Hs He. unfold batch_predict.
    read_self Hself. call_returns Ht. read_self Hself. call_returns Hs.
    read_self Hself. call_raises He.
    simpl. now rewrite <- !app_assoc.
Qed.

(** X8. [build_model] tunes nothing that was not trained: when the student
    modeler cannot be created, nothing is trained or tuned; when training
    raises, [tune_decision_threshold] is not called. *)
Theorem build_model_stops_at_first_failure (self : FaultPredOracleModeler) (st : State) :
  (forall e w1,
     StudentModeler_new fw (m_teacher self)
       (student_input_cat_cols self) (student_input_num_cols self)
       (student_input_subsampling_factor self) (student_train_date_range self)
       (world st) = (Raise e, w1) ->
     build_model fw self st =
       (Raise e,
        mkState w1 (heap st)
          (calls st ++ [StudentModelerNew (m_teacher self)
                          (student_input_cat_cols self) (student_input_num_cols self)
                          (student_input_subsampling_factor self)
                          (student_train_date_range self)]))) /\
  (forall sm w1 e w2,
     StudentModeler_new fw (m_teacher self)
       (student_input_cat_cols self) (student_input_num_cols self)
       (student_input_subsampling_factor self) (student_train_date_range self)
       (world st) = (Return sm, w1) ->
     sm_build_model sm w1 = (Raise e, w2) ->
     build_model fw self st =
       (Raise e,
        mkState w2 (heap st)
          (calls st ++ [StudentModelerNew (m_teacher self)
                          (student_input_cat_cols self) (student_input_num_cols self)
                          (student_input_subsampling_factor self)
                          (student_train_date_range self);
                        StudentModelerBuildModel sm]))).
Proof.
  split.
  - intros e w1 Hnew. unfold build_model. call_raises Hnew. reflexivity.
  - intros sm w1 e w2 Hnew Hb. unfold build_model.
    call_returns Hnew. call_raises Hb. simpl. now rewrite <- !app_assoc.
Qed.

(** X9. The rows of a batch result, by position: when the teacher and the
    student have at least as many rows as the ensemble, the result has as many
    rows as the ensemble's predictions, and its row at position [i] has the
    ensemble's label at [i] and the teacher's, the student's and the
    ensemble's values at [i]; the labels of the teacher's and of the student's
    predictions play no part. *)
Theorem batch_predict_rows_by_position
    (self : nat) (o : FaultPredOracle) (feeder : S3ParquetDataFeeder) (st : State)
    (tp sp ep : Series bool) (w1 w2 w3 : World) :
  heap st !! self = Some o ->
  t_batch_predict (teacher o) feeder (world st) = (Return tp, w1) ->
  st_batch_predict (student o) feeder true w1 = (Return sp, w2) ->
  e_batch_predict (ensemble o) tp sp w2 = (Return ep, w3) ->
  length (s_rows ep) <= length (s_rows tp) ->
  length (s_rows ep) <= length (s_rows sp) ->
  exists res,
    fst (batch_predict self feeder st) = Return res /\
    length (s_rows res) = length (s_rows ep) /\
    forall i l t s e,
      s_rows res !! i = Some (l, (t, s, e))
      <-> s_index ep !! i = Some l /\
          s_values tp !! i = Some t /\
          s_values sp !! i = Some s /\
          s_values ep !! i = Some e.
Proof.
  intros Hself Ht Hs He Hlt Hls.
  eexists. split; [| split].
  - erewrite batch_predict_run by eassumption. reflexivity.
  - simpl. rewrite length_combine. unfold s_index, s_values.
    rewrite zip3_length; rewrite !length_map; auto. lia.
  - intros i l t s e. simpl. rewrite combine_lookup, zip3_lookup. tauto.
Qed.

End Coverage.


(** X2 on the concrete framework: a student's name that is a date. *)
Lemma load_refuses_names_without_dashes_witness :
  (exists msg,
     load Demo.demo_framework "DemoTeacher" (Demo.demo_state 0) =
       (Raise (ValueError msg), mkState 1 [Demo.demo_oracle 0] [ImportAiModels])) /\
  (exists msg,
     load Demo.demo_framework ("DemoTeacher" ++ "---" ++ "2021-01-01") (Demo.demo_state 0) =
       (Raise (ValueError msg), mkState 1 [Demo.demo_oracle 0] [ImportAiModels])).
Proof.
  apply (load_refuses_names_without_dashes Demo.demo_framework
           "DemoTeacher" "2021-01-01" (Demo.demo_state 0)
           {[ "DemoTeacher" := Demo.demo_teacher_class ]} 1); reflexivity.
Defined.

(** X3 on the concrete framework: a load that returns. *)
Lemma load_adds_one_oracle_or_none_witness :
  heap (Demo.demo_state 0) !! 1 = None /\
  exists o,
    heap (snd (load Demo.demo_framework "DemoTeacher--1.0---20210101" (Demo.demo_state 0)))
      = [Demo.demo_oracle 0; o] /\
    heap (snd (load Demo.demo_framework "DemoTeacher--1.0---20210101" (Demo.demo_state 0)))
      !! 1 = Some o.
Proof.
  apply (proj2 (load_adds_one_oracle_or_none Demo.demo_framework
                  "DemoTeacher--1.0---20210101" (Demo.demo_state 0)) 1
           (snd (load Demo.demo_framework "DemoTeacher--1.0---20210101"
                   (Demo.demo_state 0)))).
  vm_compute. reflexivity.
Defined.

(** X4 on the concrete framework: the same version loaded twice. *)
Lemma two_loads_share_the_default_ensemble_witness :
  1 <> 2 /\
  exists o1 o2,
    heap (snd (load Demo.demo_framework "DemoTeacher--1.0---20210101" (Demo.demo_state 0)))
      !! 1 = Some o1 /\
    heap (snd (load Demo.demo_framework "DemoTeacher--1.0---20210101"
                 (snd (load Demo.demo_framework "DemoTeacher--1.0---20210101"
                         (Demo.demo_state 0)))))
      !! 1 = Some o1 /\
    heap (snd (load Demo.demo_framework "DemoTeacher--1.0---20210101"
                 (snd (load Demo.demo_framework "DemoTeacher--1.0---20210101"
                         (Demo.demo_state 0)))))
      !! 2 = Some o2 /\
    ensemble o1 = Demo.demo_ensemble /\
    ensemble o2 = ensemble o1.
Proof.
  apply (two_loads_share_the_default_ensemble Demo.demo_framework
           "DemoTeacher--1.0---20210101" "DemoTeacher--1.0---20210101"
           (Demo.demo_state 0)
           (snd (load Demo.demo_framework "DemoTeacher--1.0---20210101" (Demo.demo_state 0)))
           (snd (load Demo.demo_framework "DemoTeacher--1.0---20210101"
                   (snd (load Demo.demo_framework "DemoTeacher--1.0---20210101"
                           (Demo.demo_state 0)))))
           1 2); vm_compute; reflexivity.
Defined.


(** X6 on the concrete framework: the strict teacher on a negative reading. *)
Lemma predict_stops_at_first_failure_witness :
  predict 0 (-5)%Z DemoFailures.failing_state =
    (Raise DemoFailures.sensor_error,
     mkState 1 (heap DemoFailures.failing_state)
       [TeacherPredict DemoFailures.strict_teacher (-5)%Z]).
Proof.
  apply (proj1 (predict_stops_at_first_failure 0
                  (mkOracle "refrig" "co2_mid_1_compressor" "20210101"
                     DemoFailures.strict_teacher (Demo.demo_student 0 "20210101")
                     Demo.demo_ensemble)
                  (-5)%Z DemoFailures.failing_state eq_refl)).
  reflexivity.
Defined.

(** X7 on the concrete framework: the student without a model file. *)
Lemma batch_predict_stops_at_first_failure_witness :
  batch_predict 1 Demo.demo_feeder DemoFailures.failing_state =
    (Raise DemoFailures.no_model_file,
     mkState 2 (heap DemoFailures.failing_state)
       [TeacherBatchPredict Demo.demo_teacher Demo.demo_feeder;
        StudentBatchPredict DemoFailures.missing_student Demo.demo_feeder true]).
Proof.
  apply (proj1 (proj2 (batch_predict_stops_at_first_failure 1
                         (mkOracle "refrig" "co2_mid_1_compressor" "20210101"
                            Demo.demo_teacher DemoFailures.missing_student
                            Demo.demo_ensemble)
                         Demo.demo_feeder DemoFailures.failing_state eq_refl))
           (mkSeries None [("2021-01-01", true); ("2021-01-02", false)]) 1);
    reflexivity.
Defined.

(** X8 on the concrete framework: a modeler that cannot train. *)
Lemma build_model_stops_at_first_failure_witness :
  build_model DemoFailures.untrainable_framework Demo.demo_modeler (Demo.demo_state 0) =
    (Raise DemoFailures.no_data,
     mkState 2 [Demo.demo_oracle 0]
       [StudentModelerNew Demo.demo_teacher ["site"] ["temperature"; "pressure"] 6
          ("2020-01-01", "2020-06-30");
        StudentModelerBuildModel
          (mkStudentModeler (Demo.failed DemoFailures.no_data))]).
Proof.
  apply (proj2 (build_model_stops_at_first_failure DemoFailures.untrainable_framework
                  Demo.demo_modeler (Demo.demo_state 0))
           (mkStudentModeler (Demo.failed DemoFailures.no_data)) 1);
    reflexivity.
Defined.

(** X9 on the concrete framework: the student lags by a day, so the one row of
    the result is made of the first values of the teacher and of the student
    under the ensemble's first label. *)
Lemma batch_predict_rows_by_position_witness :
  exists res,
    fst (batch_predict 0 Demo.demo_feeder (Demo.demo_state 1)) = Return res /\
    length (s_rows res) = 1 /\
    forall i l t s e,
      s_rows res !! i = Some (l, (t, s, e))
      <-> ["2021-01-02"] !! i = Some l /\
          [true; false] !! i = Some t /\
          [false] !! i = Some s /\
          [false] !! i = Some e.
Proof.
  apply (batch_predict_rows_by_position 0 (Demo.demo_oracle 1) Demo.demo_feeder
           (Demo.demo_state 1)
           (mkSeries None [("2021-01-01", true); ("2021-01-02", false)])
           (mkSeries None [("2021-01-02", false)])
           (mkSeries None [("2021-01-02", false)])
           1 2 3); try reflexivity; simpl; lia.
Defined.
